(** * IOCipher: the native FIFO provisioning entry point

    A shallow embedding of [jni/info_guardianproject_iocipher_Pipes.c].
    The file holds one function, the JNI entry point
    [Java_info_guardianproject_iocipher_Pipes_createfifonative], whose body
    is eleven statements of the shape [status = mkfifo(path, mode);].

    The function is embedded as a program over one external call, [mkfifo];
    an execution threads the state of the environment that answers the
    calls and records every call together with the status it returned. *)

From Stdlib Require Import ZArith Lia List Ascii.
From stdpp Require Import base gmap strings list fin_maps.

Local Open Scope string_scope.
Local Open Scope Z_scope.

(** ** Permission macros *)

(** The [S_I*] macros are declared in [<sys/stat.h>], which is not part
    of the sources.  The spec describes the mask as "the standard
    POSIX-style rwx-per-owner/group/other mask"; the values are the POSIX
    ones (octal in the comments). *)
Module Stat.
(** Modelled from the spec: [S_IRUSR] of [<sys/stat.h>], read by owner, 0400. *)
Definition S_IRUSR : Z := 256.
(** Modelled from the spec: [S_IWUSR] of [<sys/stat.h>], write by owner, 0200. *)
Definition S_IWUSR : Z := 128.
(** Modelled from the spec: [S_IXUSR] of [<sys/stat.h>], execute by owner, 0100. *)
Definition S_IXUSR : Z := 64.
(** Modelled from the spec: [S_IRGRP] of [<sys/stat.h>], read by group, 0040. *)
Definition S_IRGRP : Z := 32.
(** Modelled from the spec: [S_IWGRP] of [<sys/stat.h>], write by group, 0020. *)
Definition S_IWGRP : Z := 16.
(** Modelled from the spec: [S_IXGRP] of [<sys/stat.h>], execute by group, 0010. *)
Definition S_IXGRP : Z := 8.
(** Modelled from the spec: [S_IROTH] of [<sys/stat.h>], read by others, 0004. *)
Definition S_IROTH : Z := 4.
(** Modelled from the spec: [S_IWOTH] of [<sys/stat.h>], write by others, 0002. *)
Definition S_IWOTH : Z := 2.
(** Modelled from the spec: [S_IXOTH] of [<sys/stat.h>], execute by others, 0001. *)
Definition S_IXOTH : Z := 1.

(** Modelled from the spec: the nine permission bits of the mask, 0777. *)
Definition ACCESSPERMS : Z := 511.
(** The three execute bits, 0111. *)
Definition EXECPERMS : Z := Z.lor S_IXUSR (Z.lor S_IXGRP S_IXOTH).
End Stat.
Import Stat.

(** C's bitwise or, left associative as in the source. *)
Local Infix ".|." := Z.lor (at level 50, left associativity).

(** ** Programs over the external call *)

(** A program either returns, or calls [mkfifo(path, mode)] and continues
    with the [int] the call returned. *)
Inductive prog (R : Type) : Type :=
| Ret (r : R)
| Mkfifo (path : string) (mode : Z) (k : Z -> prog R).
Arguments Ret {R} r.
Arguments Mkfifo {R} path mode k.

Fixpoint bind {A B : Type} (p : prog A) (f : A -> prog B) : prog B :=
  match p with
  | Ret a => f a
  | Mkfifo path mode k => Mkfifo path mode (fun st => bind (k st) f)
  end.

(** The call itself, as an expression of type [int]. *)
Definition mkfifo (path : string) (mode : Z) : prog Z := Mkfifo path mode Ret.

Notation "x <- p ;; q" := (bind p (fun x => q))
  (at level 20, p at level 99, q at level 200, only parsing).

(** ** The entry point

    [int status;] is a local that every statement assigns and none reads;
    each binder below is one assignment to it.  The [env] pointer is never
    used.  The function is [void]: it returns [tt]. *)
Definition Java_info_guardianproject_iocipher_Pipes_createfifonative
    {JNIEnv : Type} (env : JNIEnv) : prog unit :=
  status <- mkfifo "/storage/emulated/legacy/DCIM/foo.jpg" (S_IWUSR .|. S_IRUSR .|. S_IRGRP .|. S_IWGRP .|. S_IROTH .|. S_IWOTH) ;;
  status <- mkfifo "/data/data/info.guardianproject.securecamtest/pipe0" (S_IWUSR .|. S_IRUSR .|. S_IRGRP .|. S_IWGRP .|. S_IROTH .|. S_IWOTH) ;;
  status <- mkfifo "/data/data/info.guardianproject.securecamtest/pipe1" (S_IWUSR .|. S_IRUSR .|. S_IRGRP .|. S_IWGRP .|. S_IROTH .|. S_IWOTH) ;;
  status <- mkfifo "/data/data/info.guardianproject.securecamtest/pipe2" (S_IWUSR .|. S_IRUSR .|. S_IRGRP .|. S_IWGRP .|. S_IROTH .|. S_IWOTH) ;;
  status <- mkfifo "/data/data/info.guardianproject.securecamtest/pipe3" (S_IWUSR .|. S_IRUSR .|. S_IRGRP .|. S_IWGRP .|. S_IROTH .|. S_IWOTH) ;;
  status <- mkfifo "/data/data/info.guardianproject.securecamtest/pipe4" (S_IWUSR .|. S_IRUSR .|. S_IRGRP .|. S_IWGRP .|. S_IROTH .|. S_IWOTH) ;;
  status <- mkfifo "/data/data/info.guardianproject.securecamtest/pipe5" (S_IWUSR .|. S_IRUSR .|. S_IRGRP .|. S_IWGRP .|. S_IROTH .|. S_IWOTH) ;;
  status <- mkfifo "/data/data/info.guardianproject.securecamtest/pipe6" (S_IWUSR .|. S_IRUSR .|. S_IRGRP .|. S_IWGRP .|. S_IROTH .|. S_IWOTH) ;;
  status <- mkfifo "/data/data/info.guardianproject.securecamtest/pipe7" (S_IWUSR .|. S_IRUSR .|. S_IRGRP .|. S_IWGRP .|. S_IROTH .|. S_IWOTH) ;;
  status <- mkfifo "/data/data/info.guardianproject.securecamtest/pipe8" (S_IWUSR .|. S_IRUSR .|. S_IRGRP .|. S_IWGRP .|. S_IROTH .|. S_IWOTH) ;;
  status <- mkfifo "/data/data/info.guardianproject.securecamtest/pipe9" (S_IWUSR .|. S_IRUSR .|. S_IRGRP .|. S_IWGRP .|. S_IROTH .|. S_IWOTH) ;;
  Ret tt.

(** ** The batch behind the entry point *)

(** One pipe to create: the two arguments of a [mkfifo] call. *)
Record PipeRequest : Type := Request { path : string; permissions : Z }.

(** The statement schema of the entry point, [status = mkfifo(path, mode);]
    once per request and in order, for an arbitrary list of requests.  The
    entry point is this schema at [hardcoded_requests]
    (see [createfifonative_is_batch]). *)
Fixpoint createfifos (requests : list PipeRequest) : prog unit :=
  match requests with
  | [] => Ret tt
  | r :: rest =>
      status <- mkfifo (path r) (permissions r) ;;
      createfifos rest
  end.

Definition hardcoded_mode : Z :=
  S_IWUSR .|. S_IRUSR .|. S_IRGRP .|. S_IWGRP .|. S_IROTH .|. S_IWOTH.

Definition hardcoded_requests : list PipeRequest :=
  [ Request "/storage/emulated/legacy/DCIM/foo.jpg" hardcoded_mode;
    Request "/data/data/info.guardianproject.securecamtest/pipe0" hardcoded_mode;
    Request "/data/data/info.guardianproject.securecamtest/pipe1" hardcoded_mode;
    Request "/data/data/info.guardianproject.securecamtest/pipe2" hardcoded_mode;
    Request "/data/data/info.guardianproject.securecamtest/pipe3" hardcoded_mode;
    Request "/data/data/info.guardianproject.securecamtest/pipe4" hardcoded_mode;
    Request "/data/data/info.guardianproject.securecamtest/pipe5" hardcoded_mode;
    Request "/data/data/info.guardianproject.securecamtest/pipe6" hardcoded_mode;
    Request "/data/data/info.guardianproject.securecamtest/pipe7" hardcoded_mode;
    Request "/data/data/info.guardianproject.securecamtest/pipe8" hardcoded_mode;
    Request "/data/data/info.guardianproject.securecamtest/pipe9" hardcoded_mode ].

(** ** Executions *)

(** One call as the environment saw it, with the status it answered. *)
Record event : Type := Event { ev_path : string; ev_mode : Z; ev_status : Z }.

Definition ev_request (e : event) : PipeRequest := Request (ev_path e) (ev_mode e).

(** An environment answers a call with a status and its next state. *)
Definition handler (W : Type) : Type := string -> Z -> W -> Z * W.

(** Running a program: the returned value, the final state of the
    environment and the calls made, oldest first. *)
Record result (W R : Type) : Type :=
  Result { ret : R; final : W; trace : list event }.
Arguments Result {W R} ret final trace.
Arguments ret {W R} _.
Arguments final {W R} _.
Arguments trace {W R} _.

Fixpoint exec {W R : Type} (h : handler W) (p : prog R) (w : W) : result W R :=
  match p with
  | Ret r => Result r w []
  | Mkfifo path mode k =>
      let '(st, w') := h path mode w in
      let res := exec h (k st) w' in
      Result (ret res) (final res) (Event path mode st :: trace res)
  end.

(** An environment whose calls may fail to return ([None]). *)
Definition partial_handler (W : Type) : Type := string -> Z -> W -> option (Z * W).

Fixpoint exec_partial {W R : Type} (h : partial_handler W) (p : prog R) (w : W)
  : option (result W R) :=
  match p with
  | Ret r => Some (Result r w [])
  | Mkfifo path mode k =>
      match h path mode w with
      | None => None
      | Some (st, w') =>
          match exec_partial h (k st) w' with
          | None => None
          | Some res =>
              Some (Result (ret res) (final res) (Event path mode st :: trace res))
          end
      end
  end.

(** ** The filesystem behind the call *)

Module Posix.

(** Modelled from the spec: the kinds of node it names, the pipe, the
    regular file and the directory. *)
Inductive node_type : Type := Fifo | RegularFile | Directory.

(** Modelled from the spec: a node of the filesystem, "a pipe-compatible
    node" or "an incompatible node (e.g., a regular file, a directory)":
    its type, its mode bits and, for a regular file, its bytes. *)
Record node : Type := Node { n_type : node_type; n_mode : Z; n_data : list Z }.

(** Modelled from the spec: the filesystem, the only state the calls
    touch: the nodes by absolute path, the umask the environment applies,
    and whether every new node is refused ("disk full, read-only
    filesystem, unsupported filesystem feature"). *)
Record filesystem : Type :=
  Filesystem { nodes : gmap string node; umask : Z; read_only : bool }.

(** Modelled from the spec: the taxonomy of failures of section 7. *)
Inductive reason : Type :=
| PathAlreadyExistsIncompatible
| ParentDirectoryMissing
| PermissionDenied
| IOError.

(** Modelled from the spec: the outcome of one creation attempt, "one of
    [Created], [AlreadyExists], [Failed(reason)]" (section 3). *)
Inductive outcome : Type :=
| Created
| AlreadyExists
| Failed (why : reason).

(** The text of [p] before its last slash, if [p] has a slash. *)
Fixpoint before_last_slash (p : string) : option string :=
  match p with
  | EmptyString => None
  | String c rest =>
      match before_last_slash rest with
      | Some d => Some (String c d)
      | None => if Ascii.eqb c "/"%char then Some EmptyString else None
      end
  end.

(** Modelled from the spec: "the containing directory" of a path, the
    text before its last slash ([/] for an entry of the root, [.] for a
    path without a slash). *)
Definition dirname (p : string) : string :=
  match before_last_slash p with
  | Some EmptyString => "/"
  | Some d => d
  | None => "."
  end.

(** Modelled from the spec: whether the filesystem lets the caller add
    an entry to directory [d] or "rejected creation due to access rights";
    the caller is taken to own [d], so these are the write and search bits
    of the owner (0200 and 0100). *)
Definition may_add_entry (d : node) : bool :=
  Z.testbit (n_mode d) 7 && Z.testbit (n_mode d) 6.

(** Modelled from the spec: "permissions must be a valid mask", that is,
    no bit outside the nine permission bits. *)
Definition valid_mask (mode : Z) : bool :=
  (0 <=? mode) && (Z.land mode ACCESSPERMS =? mode).

(** Modelled from the spec: what the filesystem reports for an attempt
    to create a pipe at [p] with mask [mode]; the system call is declared
    in [<sys/stat.h>] and implemented outside the sources.  Section 4.1,
    steps 2 to 4, and section 7: success is [Created]; a path that
    "already exists as a pipe-compatible node" is [AlreadyExists]; "a
    non-pipe node occupies the target path" is
    [PathAlreadyExistsIncompatible]; "the containing directory does not
    exist" is [ParentDirectoryMissing]; "the filesystem rejected creation
    due to access rights" is [PermissionDenied]; "any other
    filesystem-reported failure (disk full, read-only filesystem,
    unsupported filesystem feature)" is [IOError], which is also how
    "out-of-range bits" of the mask are rejected. *)
Definition attempt (fs : filesystem) (p : string) (mode : Z) : outcome :=
  match nodes fs !! p with
  | Some n =>
      match n_type n with
      | Fifo => AlreadyExists
      | _ => Failed PathAlreadyExistsIncompatible
      end
  | None =>
      match nodes fs !! dirname p with
      | Some d =>
          match n_type d with
          | Directory =>
              if negb (may_add_entry d) then Failed PermissionDenied
              else if read_only fs || negb (valid_mask mode) then Failed IOError
              else Created
          | _ => Failed ParentDirectoryMissing
          end
      | None => Failed ParentDirectoryMissing
      end
  end.

(** Modelled from the spec: the status of a call, which the code assigns
    to [status].  The values are those of the C interface: 0 on success,
    -1 on every failure, a path that exists included, whatever node is
    there; the cause is left in [errno], which the code does not read. *)
Definition status_of (o : outcome) : Z :=
  match o with
  | Created => 0
  | _ => -1
  end.

(** Modelled from the spec: the pipe a successful call creates, empty and
    with "the requested permission bits (modulo umask)": the requested
    bits that the umask does not clear. *)
Definition new_fifo (fs : filesystem) (mode : Z) : node :=
  Node Fifo (Z.land mode (Z.lnot (umask fs))) [].

(** Modelled from the spec: the system call [mkfifo] as a handler.  It
    creates the node exactly when the attempt is reported [Created]
    ("filesystem mutation (creation of pipe nodes) for successful
    requests only"), with "the requested permission bits (modulo
    umask)"; otherwise the filesystem is left as it was. *)
Definition sys_mkfifo : handler filesystem :=
  fun p mode fs =>
    match attempt fs p mode with
    | Created =>
        (status_of Created,
         Filesystem (<[p := new_fifo fs mode]> (nodes fs)) (umask fs) (read_only fs))
    | o => (status_of o, fs)
    end.

(** Modelled from the spec: the outcomes of a batch as the filesystem
    reports them, request by request, each on the filesystem its
    predecessors left.  The code is handed [status_of] of each. *)
Fixpoint reports (requests : list PipeRequest) (fs : filesystem) : list outcome :=
  match requests with
  | [] => []
  | r :: rest =>
      attempt fs (path r) (permissions r)
      :: reports rest (snd (sys_mkfifo (path r) (permissions r) fs))
  end.

(** Nothing is at the path of [r], its containing directory exists and
    admits a new entry, the filesystem accepts new nodes and the mask of
    [r] is valid. *)
Definition creatable (fs : filesystem) (r : PipeRequest) : Prop :=
  nodes fs !! path r = None
  /\ (exists d, nodes fs !! dirname (path r) = Some d
               /\ n_type d = Directory /\ may_add_entry d = true)
  /\ read_only fs = false
  /\ valid_mask (permissions r) = true.

End Posix.
Import Posix.

(** Modelled from the spec: a valid request, "path must be non-empty;
    permissions must be a valid mask". *)
Definition valid_request (r : PipeRequest) : Prop :=
  path r <> "" /\ valid_mask (permissions r) = true.

(** ** Sample filesystems *)

Definition dir (mode : Z) : node := Node Directory mode [].

(** A device on which the application's data directory exists and the
    picture [foo.jpg] is already there as a regular file. *)
Definition device : filesystem :=
  Filesystem
    (<["/storage/emulated/legacy/DCIM/foo.jpg" := Node RegularFile 432 [255; 216; 255; 224]]>
     (<["/storage/emulated/legacy/DCIM" := dir 504]>
      (<["/data/data/info.guardianproject.securecamtest" := dir 448]>
       (<["/" := dir 493]> ∅))))
    0 false.

(** The same device without the picture. *)
Definition device_without_picture : filesystem :=
  Filesystem
    (<["/storage/emulated/legacy/DCIM" := dir 504]>
     (<["/data/data/info.guardianproject.securecamtest" := dir 448]>
      (<["/" := dir 493]> ∅)))
    0 false.

(** The spec's example: a freshly created, empty [/tmp/test]. *)
Definition tmp_test : filesystem :=
  Filesystem (<["/tmp/test" := dir 511]> (<["/tmp" := dir 511]> (<["/" := dir 493]> ∅))) 0 false.

Definition pipeA : PipeRequest := Request "/tmp/test/pipeA" 438.
Definition orphan : PipeRequest := Request "/tmp/missing/pipeB" 438.
Definition sealed : PipeRequest := Request "/sealed/pipeC" 438.

(** [/tmp/test] with a regular file in the place of [pipeA] and a
    directory [/sealed] the caller may not write. *)
Definition tmp_test_taken : filesystem :=
  Filesystem
    (<["/tmp/test/pipeA" := Node RegularFile 420 [104; 105]]>
     (<["/sealed" := dir 365]>
      (<["/tmp/test" := dir 511]> (<["/tmp" := dir 511]> (<["/" := dir 493]> ∅)))))
    0 false.

(** ** What the caller sees *)

(** Modelled from the spec: the per-request result of section 3, the
    path echoed and the outcome.  The code has no such value. *)
Record ProvisionResult : Type :=
  ProvisionResultOf { result_path : string; result_outcome : outcome }.

(** The results the caller receives from the entry point: the return type
    is [void], so the returned value carries none. *)
Definition returned_results (r : unit) : list ProvisionResult := [].

(** What a caller can see of a run: the returned value and the state the
    environment is left in.  The body has no statement that passes a
    status on (no [return], no log call), so the trace is not part of it. *)
Definition observed {W : Type} (res : result W unit) : unit * W :=
  (ret res, final res).

Definition statuses {W R : Type} (res : result W R) : list Z :=
  map ev_status (trace res).

Definition calls {W R : Type} (res : result W R) : list PipeRequest :=
  map ev_request (trace res).

(** An environment that answers as [sys_mkfifo] does or, on a filesystem
    marked [hung], never answers. *)
Definition hanging_mkfifo (hung : filesystem -> bool) : partial_handler filesystem :=
  fun p mode fs => if hung fs then None else Some (sys_mkfifo p mode fs).

(** An environment with the effects of [sys_mkfifo] that answers every
    call with the same status [st]. *)
Definition muted_mkfifo (st : Z) : handler filesystem :=
  fun p mode fs => (st, snd (sys_mkfifo p mode fs)).

(** An environment without state that fails every call. *)
Definition always_fail : handler unit := fun _ _ w => (-1, w).

(** A program in which no continuation looks at the status it is given:
    after every call the rest of the program is the same for all statuses. *)
Inductive status_blind {R : Type} : prog R -> Prop :=
| blind_ret (r : R) : status_blind (Ret r)
| blind_call (p : string) (mode : Z) (k : Z -> prog R) :
    (forall st st', k st = k st') ->
    (forall st, status_blind (k st)) ->
    status_blind (Mkfifo p mode k).

(** Two runs of the entry point, the second on the filesystem the first
    left behind. *)
Definition first_run : result filesystem unit :=
  exec sys_mkfifo (Java_info_guardianproject_iocipher_Pipes_createfifonative tt) device.

Definition second_run : result filesystem unit :=
  exec sys_mkfifo (Java_info_guardianproject_iocipher_Pipes_createfifonative tt)
       (final first_run).

(** The spec's scenarios: [pipeA] on the empty [/tmp/test], [pipeA] once
    more on what that left, [pipeA] where a regular file has its path, and
    a pipe under a directory that does not exist. *)
Definition pipeA_first : result filesystem unit :=
  exec sys_mkfifo (createfifos [pipeA]) tmp_test.

Definition pipeA_again : result filesystem unit :=
  exec sys_mkfifo (createfifos [pipeA]) (final pipeA_first).

Definition pipeA_taken : result filesystem unit :=
  exec sys_mkfifo (createfifos [pipeA]) tmp_test_taken.

Definition orphan_alone : result filesystem unit :=
  exec sys_mkfifo (createfifos [orphan]) tmp_test_taken.

(** The calls of a trace that returned 0. *)
Fixpoint count_created (t : list event) : nat :=
  match t with
  | [] => 0%nat
  | e :: rest =>
      if ev_status e =? 0 then S (count_created rest) else count_created rest
  end.

(** A request the filesystem would not satisfy: its call would not return
    0. *)
Definition refused (fs : filesystem) (r : PipeRequest) : Prop :=
  attempt fs (path r) (permissions r) <> Created.

(** The local [int status;] as the statements leave it: uninitialised
    before the first call, then assigned by every statement in turn, each
    assignment replacing the value before it.  It is the only place where
    the body keeps a status. *)
Definition local_status (t : list event) : option Z :=
  fold_left (fun _ e => Some (ev_status e)) t None.

(** A run of the entry point on the device without the picture. *)
Definition fresh_run : result filesystem unit :=
  exec sys_mkfifo (Java_info_guardianproject_iocipher_Pipes_createfifonative tt)
       device_without_picture.

(** * Properties *)

Lemma createfifonative_is_batch {JNIEnv : Type} (env : JNIEnv) :
  Java_info_guardianproject_iocipher_Pipes_createfifonative env
  = createfifos hardcoded_requests.
Proof. reflexivity. Qed.

Lemma hardcoded_mode_value : hardcoded_mode = 438.
Proof. reflexivity. Qed.

(** ** In every environment *)

Section AnyEnvironment.

Context {W : Type} (h : handler W).

Lemma exec_createfifos_cons (r : PipeRequest) (rest : list PipeRequest) (w : W) :
  exec h (createfifos (r :: rest)) w
  = Result (ret (exec h (createfifos rest) (snd (h (path r) (permissions r) w))))
           (final (exec h (createfifos rest) (snd (h (path r) (permissions r) w))))
           (Event (path r) (permissions r) (fst (h (path r) (permissions r) w))
            :: trace (exec h (createfifos rest) (snd (h (path r) (permissions r) w)))).
Proof. simpl. destruct (h (path r) (permissions r) w); reflexivity. Qed.

Lemma ret_createfifos (requests : list PipeRequest) (w : W) :
  ret (exec h (createfifos requests) w) = tt.
Proof. destruct (ret _); reflexivity. Qed.

Lemma calls_createfifos (requests : list PipeRequest) (w : W) :
  calls (exec h (createfifos requests) w) = requests.
Proof.
  unfold calls. revert w.
  induction requests as [|[p m] rest IH]; intros w; [reflexivity|].
  rewrite exec_createfifos_cons. cbn [trace map ev_request ev_path ev_mode path permissions].
  f_equal. apply IH.
Qed.

Lemma trace_length_createfifos (requests : list PipeRequest) (w : W) :
  length (trace (exec h (createfifos requests) w)) = length requests.
Proof.
  rewrite <- (calls_createfifos requests w) at 2.
  unfold calls. now rewrite length_map.
Qed.

Lemma trace_lookup_createfifos (requests : list PipeRequest) (w : W) (i : nat) (r : PipeRequest) :
  requests !! i = Some r ->
  exists st, trace (exec h (createfifos requests) w) !! i
             = Some (Event (path r) (permissions r) st).
Proof.
  intros Hr.
  pose proof (calls_createfifos requests w) as Hc. unfold calls in Hc.
  rewrite <- Hc in Hr. rewrite list_lookup_fmap in Hr.
  destruct (trace (exec h (createfifos requests) w) !! i) as [[p m st]|]; [|discriminate].
  injection Hr as <-. exists st. reflexivity.
Qed.

End AnyEnvironment.

(** C1 (amended): for every ordered sequence of requests and every
    environment, each request yields exactly one creation call and exactly
    one status, and the sequence of calls has the length of the input and
    its order of path values; no result list is returned, the entry point
    returns nothing. *)
Theorem C1_one_call_per_request_in_order :
  forall (W : Type) (h : handler W) (requests : list PipeRequest) (w : W),
    length (trace (exec h (createfifos requests) w)) = length requests
    /\ map ev_path (trace (exec h (createfifos requests) w)) = map path requests
    /\ (forall (i : nat) (r : PipeRequest),
          requests !! i = Some r ->
          exists st, trace (exec h (createfifos requests) w) !! i
                     = Some (Event (path r) (permissions r) st))
    /\ returned_results (ret (exec h (createfifos requests) w)) = [].
Proof.
  intros W h requests w. split; [apply trace_length_createfifos|].
  split.
  - rewrite <- (calls_createfifos h requests w) at 2.
    unfold calls. rewrite <- list_fmap_compose. reflexivity.
  - split; [|reflexivity].
    intros i r Hr. now apply trace_lookup_createfifos.
Qed.

(** C1 as stated fails on the entry point: its eleven requests are valid,
    and the list of results it returns is not of length eleven, for it
    returns nothing. *)
Lemma C1_counterexample_nothing_returned :
  Forall valid_request hardcoded_requests
  /\ length (returned_results (ret first_run)) <> length hardcoded_requests.
Proof.
  split.
  - repeat constructor; discriminate.
  - simpl. discriminate.
Qed.

Lemma local_status_snoc (t : list event) (e : event) :
  local_status (t ++ [e]) = Some (ev_status e).
Proof. unfold local_status. rewrite fold_left_app. reflexivity. Qed.

Lemma local_status_is_last (t : list event) :
  local_status t = ev_status <$> last t.
Proof.
  destruct t as [|e t _] using rev_ind; [reflexivity|].
  rewrite local_status_snoc, last_snoc. reflexivity.
Qed.

(** C2 (amended): for every batch and every position [i] in it, a failed
    creation attempt at [i] (a status other than 0) does not prevent the
    attempts for the later requests: they are all made, in order, and the
    batch runs to its end.  The failure is not recorded in a result of
    its request: its status is assigned to the one local [status], which
    the next statement overwrites, so that on return the local holds the
    status of the last call only. *)
Theorem C2_failure_does_not_stop_the_batch :
  forall (W : Type) (h : handler W) (requests : list PipeRequest) (w : W)
         (i : nat) (e : event),
    trace (exec h (createfifos requests) w) !! i = Some e ->
    ev_status e <> 0 ->
    requests !! i = Some (ev_request e)
    /\ ret (exec h (createfifos requests) w) = tt
    /\ (forall (j : nat) (r : PipeRequest),
          (i < j)%nat ->
          requests !! j = Some r ->
          exists st, trace (exec h (createfifos requests) w) !! j
                     = Some (Event (path r) (permissions r) st))
    /\ local_status (trace (exec h (createfifos requests) w))
       = ev_status <$> last (trace (exec h (createfifos requests) w))
    /\ returned_results (ret (exec h (createfifos requests) w)) = [].
Proof.
  intros W h requests w i e He _. split; [|split; [|split; [|split]]].
  - rewrite <- (calls_createfifos h requests w) at 1.
    unfold calls. rewrite list_lookup_fmap, He. reflexivity.
  - apply ret_createfifos.
  - intros j r _ Hr. now apply trace_lookup_createfifos.
  - apply local_status_is_last.
  - reflexivity.
Qed.

Lemma C2_witness_orphan_then_pipeA :
  trace (exec sys_mkfifo (createfifos [orphan; pipeA]) tmp_test) !! 0%nat
  = Some (Event "/tmp/missing/pipeB" 438 (-1))
  /\ (exists st, trace (exec sys_mkfifo (createfifos [orphan; pipeA]) tmp_test) !! 1%nat
                 = Some (Event (path pipeA) (permissions pipeA) st))
  /\ local_status (trace (exec sys_mkfifo (createfifos [orphan; pipeA]) tmp_test))
     = Some 0.
Proof.
  split; [vm_compute; reflexivity|].
  split; [|vm_compute; reflexivity].
  refine (proj1 (proj2 (proj2
    (C2_failure_does_not_stop_the_batch filesystem sys_mkfifo [orphan; pipeA] tmp_test
       0%nat (Event "/tmp/missing/pipeB" 438 (-1)) _ _))) 1%nat pipeA _ _).
  - vm_compute. reflexivity.
  - simpl. lia.
  - lia.
  - reflexivity.
Defined.

(** C2 as stated fails on the entry point: on [device] the call for
    [foo.jpg] fails and on [device_without_picture] it succeeds, the ten
    later calls are made in both runs, and in both the local [status]
    ends as 0; nothing the body keeps records the failure of the first
    request. *)
Lemma C2_counterexample_failure_not_recorded :
  ~ exists result_of_first : option Z -> Z,
      Some (result_of_first (local_status (trace first_run)))
      = statuses first_run !! 0%nat
      /\ Some (result_of_first (local_status (trace fresh_run)))
         = statuses fresh_run !! 0%nat.
Proof.
  intros [result_of_first [H1 H2]].
  vm_compute in H1, H2. congruence.
Qed.

(** The two runs of the counterexample: the failure, the later calls and
    the local on return. *)
Example failure_then_ten_pipes :
  statuses first_run = [-1; 0; 0; 0; 0; 0; 0; 0; 0; 0; 0]
  /\ statuses fresh_run = [0; 0; 0; 0; 0; 0; 0; 0; 0; 0; 0]
  /\ local_status (trace first_run) = Some 0
  /\ local_status (trace fresh_run) = Some 0.
Proof. repeat split; vm_compute; reflexivity. Qed.

Lemma observed_createfifos_same_effects {W : Type} (h1 h2 : handler W) :
  (forall p m w, snd (h1 p m w) = snd (h2 p m w)) ->
  forall (requests : list PipeRequest) (w : W),
    observed (exec h1 (createfifos requests) w)
    = observed (exec h2 (createfifos requests) w).
Proof.
  intros Hsame requests.
  induction requests as [|r rest IH]; intros w; [reflexivity|].
  rewrite !exec_createfifos_cons. unfold observed in *. cbn [ret final].
  rewrite Hsame. apply IH.
Qed.

(** C4 (amended): the status of every creation call is assigned to the
    local [status] and dropped.  It reaches neither the value returned (the
    entry point returns nothing) nor any later call: two environments with
    the same effects and different statuses give the caller the same
    observation and receive the same calls. *)
Theorem C4_status_is_dropped :
  forall (W : Type) (h1 h2 : handler W) (requests : list PipeRequest) (w : W),
    (forall p m w', snd (h1 p m w') = snd (h2 p m w')) ->
    observed (exec h1 (createfifos requests) w)
    = observed (exec h2 (createfifos requests) w)
    /\ calls (exec h1 (createfifos requests) w)
       = calls (exec h2 (createfifos requests) w)
    /\ ret (exec h1 (createfifos requests) w) = tt.
Proof.
  intros W h1 h2 requests w Hsame. split; [|split].
  - now apply observed_createfifos_same_effects.
  - now rewrite !calls_createfifos.
  - apply ret_createfifos.
Qed.

Lemma C4_witness_muted_environment :
  (forall p m w', snd (sys_mkfifo p m w') = snd (muted_mkfifo 7 p m w'))
  /\ statuses (exec (muted_mkfifo 7) (createfifos hardcoded_requests) device)
     <> statuses (exec sys_mkfifo (createfifos hardcoded_requests) device)
  /\ observed (exec sys_mkfifo (createfifos hardcoded_requests) device)
     = observed (exec (muted_mkfifo 7) (createfifos hardcoded_requests) device).
Proof.
  split; [intros p m w'; reflexivity|].
  split; [vm_compute; discriminate|].
  refine (proj1 (C4_status_is_dropped filesystem sys_mkfifo (muted_mkfifo 7)
                   hardcoded_requests device _)).
  intros p m w'. reflexivity.
Defined.

(** C4 as stated fails: the first run of the entry point on [device] and
    the run that follows it leave the caller with the same observation,
    yet the statuses of their calls differ; nothing the caller holds
    determines the statuses. *)
Lemma C4_counterexample_statuses_not_observable :
  ~ exists surface : unit * filesystem -> list Z,
      surface (observed first_run) = statuses first_run
      /\ surface (observed second_run) = statuses second_run.
Proof.
  intros [surface [H1 H2]].
  assert (Hobs : observed first_run = observed second_run)
    by (vm_compute; reflexivity).
  rewrite Hobs, H2 in H1.
  vm_compute in H1. discriminate H1.
Qed.

Lemma exec_partial_createfifos {W : Type} (h : partial_handler W) :
  (forall p m w, h p m w <> None) ->
  forall (requests : list PipeRequest) (w : W),
  exists res, exec_partial h (createfifos requests) w = Some res
              /\ ret res = tt /\ calls res = requests.
Proof.
  intros Hret requests.
  induction requests as [|[p m] rest IH]; intros w.
  - eexists. split; [reflexivity|]. split; reflexivity.
  - simpl. destruct (h p m w) as [[st w']|] eqn:Hh; [|now apply Hret in Hh].
    destruct (IH w') as (res & -> & Hr & Hc).
    eexists. split; [reflexivity|]. split; [exact Hr|].
    unfold calls in *. simpl. now rewrite Hc.
Qed.

(** C8: for every batch, in an environment in which every creation call
    returns, the run of the batch ends: it returns to the caller (with no
    value) after one call per request, made one after the other in the
    order of the batch, the last call being that of the last request. *)
Theorem C8_batch_terminates :
  forall (W : Type) (h : partial_handler W) (requests : list PipeRequest) (w : W),
    (forall p m w', h p m w' <> None) ->
    exists res, exec_partial h (createfifos requests) w = Some res
                /\ ret res = tt
                /\ calls res = requests
                /\ last (calls res) = last requests.
Proof.
  intros W h requests w Hret.
  destruct (exec_partial_createfifos h Hret requests w) as (res & He & Hr & Hc).
  exists res. repeat split; try assumption. now rewrite Hc.
Qed.

Lemma C8_witness_entry_point_returns :
  (forall p m w', hanging_mkfifo (fun _ => false) p m w' <> None)
  /\ exists res,
       exec_partial (hanging_mkfifo (fun _ => false))
                    (createfifos hardcoded_requests) device = Some res
       /\ ret res = tt
       /\ calls res = hardcoded_requests
       /\ last (calls res) = last hardcoded_requests.
Proof.
  split; [intros p m w'; simpl; discriminate|].
  refine (C8_batch_terminates filesystem (hanging_mkfifo (fun _ => false))
            hardcoded_requests device _).
  intros p m w'. simpl. discriminate.
Defined.

(** Where a call never returns, neither does the entry point. *)
Example hung_filesystem_hangs_entry_point :
  exec_partial (hanging_mkfifo (fun _ => true))
               (Java_info_guardianproject_iocipher_Pipes_createfifonative tt) device
  = None.
Proof. reflexivity. Qed.

(** C9: on every invocation, in every environment, the entry point makes
    exactly eleven creation calls with literal arguments, in this order:
    [/storage/emulated/legacy/DCIM/foo.jpg], then [pipe0] to [pipe9] under
    [/data/data/info.guardianproject.securecamtest/]; every call asks for
    the mask 0666, read and write for owner, group and other, with no
    execute bit. *)
Theorem C9_eleven_fixed_calls :
  forall (JNIEnv W : Type) (env : JNIEnv) (h : handler W) (w : W),
    calls (exec h (Java_info_guardianproject_iocipher_Pipes_createfifonative env) w)
    = [ Request "/storage/emulated/legacy/DCIM/foo.jpg" 438;
        Request "/data/data/info.guardianproject.securecamtest/pipe0" 438;
        Request "/data/data/info.guardianproject.securecamtest/pipe1" 438;
        Request "/data/data/info.guardianproject.securecamtest/pipe2" 438;
        Request "/data/data/info.guardianproject.securecamtest/pipe3" 438;
        Request "/data/data/info.guardianproject.securecamtest/pipe4" 438;
        Request "/data/data/info.guardianproject.securecamtest/pipe5" 438;
        Request "/data/data/info.guardianproject.securecamtest/pipe6" 438;
        Request "/data/data/info.guardianproject.securecamtest/pipe7" 438;
        Request "/data/data/info.guardianproject.securecamtest/pipe8" 438;
        Request "/data/data/info.guardianproject.securecamtest/pipe9" 438 ]
    /\ length (trace (exec h (Java_info_guardianproject_iocipher_Pipes_createfifonative env) w))
       = 11%nat
    /\ 438 = 6 * 8 ^ 2 + 6 * 8 + 6
    /\ 438 = S_IRUSR + S_IWUSR + S_IRGRP + S_IWGRP + S_IROTH + S_IWOTH
    /\ Z.land 438 EXECPERMS = 0.
Proof.
  intros JNIEnv W env h w.
  rewrite createfifonative_is_batch, calls_createfifos, trace_length_createfifos.
  repeat split; reflexivity.
Qed.

Lemma createfifos_status_blind (requests : list PipeRequest) :
  status_blind (createfifos requests).
Proof.
  induction requests as [|r rest IH]; simpl.
  - constructor.
  - constructor; [reflexivity|]. intros st. exact IH.
Qed.

(** C10: the control flow and the return of the entry point do not depend
    on what the filesystem answers.  Any two runs, in any two environments
    and whatever statuses their calls return, make the same calls with the
    same arguments in the same order and return normally, with no value;
    no continuation in the body looks at a status. *)
Theorem C10_control_flow_independent_of_statuses :
  forall (JNIEnv W1 W2 : Type) (env : JNIEnv)
         (h1 : handler W1) (h2 : handler W2) (w1 : W1) (w2 : W2),
    calls (exec h1 (Java_info_guardianproject_iocipher_Pipes_createfifonative env) w1)
    = calls (exec h2 (Java_info_guardianproject_iocipher_Pipes_createfifonative env) w2)
    /\ ret (exec h1 (Java_info_guardianproject_iocipher_Pipes_createfifonative env) w1) = tt
    /\ ret (exec h2 (Java_info_guardianproject_iocipher_Pipes_createfifonative env) w2) = tt
    /\ status_blind (Java_info_guardianproject_iocipher_Pipes_createfifonative env).
Proof.
  intros JNIEnv W1 W2 env h1 h2 w1 w2.
  rewrite createfifonative_is_batch.
  split; [now rewrite !calls_createfifos|].
  split; [apply ret_createfifos|].
  split; [apply ret_createfifos|].
  apply createfifos_status_blind.
Qed.

(** Two environments that disagree on every status. *)
Example all_fail_against_device :
  statuses (exec always_fail (Java_info_guardianproject_iocipher_Pipes_createfifonative tt) tt)
  = [-1; -1; -1; -1; -1; -1; -1; -1; -1; -1; -1]
  /\ statuses (exec sys_mkfifo (Java_info_guardianproject_iocipher_Pipes_createfifonative tt)
                    device_without_picture)
     = [0; 0; 0; 0; 0; 0; 0; 0; 0; 0; 0].
Proof. split; vm_compute; reflexivity. Qed.

(** ** On the filesystem *)

Section OneCall.

Variables (fs : filesystem) (p : string) (mode : Z).

Lemma sys_mkfifo_status : fst (sys_mkfifo p mode fs) = status_of (attempt fs p mode).
Proof. unfold sys_mkfifo. destruct (attempt fs p mode); reflexivity. Qed.

Lemma sys_mkfifo_created :
  attempt fs p mode = Created ->
  snd (sys_mkfifo p mode fs)
  = Filesystem (<[p := new_fifo fs mode]> (nodes fs)) (umask fs) (read_only fs).
Proof. unfold sys_mkfifo. intros ->. reflexivity. Qed.

Lemma sys_mkfifo_not_created :
  attempt fs p mode <> Created -> snd (sys_mkfifo p mode fs) = fs.
Proof.
  unfold sys_mkfifo.
  destruct (attempt fs p mode); intros H; [now elim H | reflexivity | reflexivity].
Qed.

Lemma status_of_zero (o : outcome) : status_of o = 0 <-> o = Created.
Proof. destruct o; simpl; split; intros H; try reflexivity; discriminate H. Qed.

Lemma attempt_created_iff : attempt fs p mode = Created <-> creatable fs (Request p mode).
Proof.
  unfold attempt, creatable. cbn [path permissions]. split.
  - destruct (nodes fs !! p) as [n|]; [destruct (n_type n); discriminate|].
    destruct (nodes fs !! dirname p) as [d|]; [|discriminate].
    destruct (n_type d) eqn:Ht; try discriminate.
    destruct (may_add_entry d) eqn:Ha; [|discriminate]. simpl.
    destruct (read_only fs); [discriminate|].
    destruct (valid_mask mode); [|discriminate]. intros _.
    repeat split; eauto.
  - intros (-> & (d & -> & -> & ->) & -> & ->). reflexivity.
Qed.

Lemma sys_mkfifo_umask : umask (snd (sys_mkfifo p mode fs)) = umask fs.
Proof. unfold sys_mkfifo. destruct (attempt fs p mode); reflexivity. Qed.

Lemma sys_mkfifo_read_only : read_only (snd (sys_mkfifo p mode fs)) = read_only fs.
Proof. unfold sys_mkfifo. destruct (attempt fs p mode); reflexivity. Qed.

Lemma sys_mkfifo_keeps (q : string) (n : node) :
  nodes fs !! q = Some n -> nodes (snd (sys_mkfifo p mode fs)) !! q = Some n.
Proof.
  intros Hq. destruct (attempt fs p mode) eqn:Ha.
  - rewrite sys_mkfifo_created by assumption. cbn [nodes].
    apply attempt_created_iff in Ha. destruct Ha as (Hnone & _). cbn [path] in Hnone.
    rewrite lookup_insert_ne; [assumption|]. congruence.
  - rewrite sys_mkfifo_not_created; [assumption|congruence].
  - rewrite sys_mkfifo_not_created; [assumption|congruence].
Qed.

Lemma sys_mkfifo_new_node (q : string) (n : node) :
  nodes fs !! q = None ->
  nodes (snd (sys_mkfifo p mode fs)) !! q = Some n ->
  q = p /\ n = new_fifo fs mode /\ attempt fs p mode = Created.
Proof.
  intros Hq Hn. destruct (attempt fs p mode) eqn:Ha.
  - rewrite sys_mkfifo_created in Hn by assumption. cbn [nodes] in Hn.
    destruct (decide (p = q)) as [->|Hne].
    + rewrite lookup_insert_eq in Hn. injection Hn as <-. auto.
    + rewrite lookup_insert_ne in Hn by assumption. congruence.
  - rewrite sys_mkfifo_not_created in Hn; congruence.
  - rewrite sys_mkfifo_not_created in Hn; congruence.
Qed.

(** The classification of the filesystem's report, cause by cause. *)
Lemma attempt_existing_pipe (n : node) :
  nodes fs !! p = Some n -> n_type n = Fifo -> attempt fs p mode = AlreadyExists.
Proof. unfold attempt. intros -> ->. reflexivity. Qed.

Lemma attempt_incompatible (n : node) :
  nodes fs !! p = Some n -> n_type n <> Fifo ->
  attempt fs p mode = Failed PathAlreadyExistsIncompatible.
Proof. unfold attempt. intros -> Hn. destruct (n_type n); congruence. Qed.

Lemma attempt_parent_missing :
  nodes fs !! p = None -> nodes fs !! dirname p = None ->
  attempt fs p mode = Failed ParentDirectoryMissing.
Proof. unfold attempt. intros -> ->. reflexivity. Qed.

Lemma attempt_permission_denied (d : node) :
  nodes fs !! p = None -> nodes fs !! dirname p = Some d ->
  n_type d = Directory -> may_add_entry d = false ->
  attempt fs p mode = Failed PermissionDenied.
Proof. unfold attempt. intros -> -> -> ->. reflexivity. Qed.

Lemma attempt_io_error (d : node) :
  nodes fs !! p = None -> nodes fs !! dirname p = Some d ->
  n_type d = Directory -> may_add_entry d = true ->
  read_only fs = true \/ valid_mask mode = false ->
  attempt fs p mode = Failed IOError.
Proof.
  unfold attempt. intros -> -> -> -> [-> | ->]; simpl; [reflexivity|].
  destruct (read_only fs); reflexivity.
Qed.

End OneCall.

Section Batch.

Implicit Types (requests : list PipeRequest) (fs : filesystem).

Lemma statuses_are_reports requests fs :
  statuses (exec sys_mkfifo (createfifos requests) fs)
  = map status_of (reports requests fs).
Proof.
  unfold statuses. revert fs.
  induction requests as [|r rest IH]; intros fs; [reflexivity|].
  rewrite exec_createfifos_cons. cbn [trace map ev_status reports].
  rewrite sys_mkfifo_status. f_equal. apply IH.
Qed.

Lemma batch_umask requests fs :
  umask (final (exec sys_mkfifo (createfifos requests) fs)) = umask fs.
Proof.
  revert fs. induction requests as [|r rest IH]; intros fs; [reflexivity|].
  rewrite exec_createfifos_cons. cbn [final]. rewrite IH. apply sys_mkfifo_umask.
Qed.

Lemma batch_read_only requests fs :
  read_only (final (exec sys_mkfifo (createfifos requests) fs)) = read_only fs.
Proof.
  revert fs. induction requests as [|r rest IH]; intros fs; [reflexivity|].
  rewrite exec_createfifos_cons. cbn [final]. rewrite IH. apply sys_mkfifo_read_only.
Qed.

Lemma batch_keeps requests fs (q : string) (n : node) :
  nodes fs !! q = Some n ->
  nodes (final (exec sys_mkfifo (createfifos requests) fs)) !! q = Some n.
Proof.
  revert fs. induction requests as [|r rest IH]; intros fs Hq; [assumption|].
  rewrite exec_createfifos_cons. cbn [final]. apply IH. now apply sys_mkfifo_keeps.
Qed.

Lemma new_fifo_after_call fs (p : string) (m m' : Z) :
  new_fifo (snd (sys_mkfifo p m fs)) m' = new_fifo fs m'.
Proof. unfold new_fifo. now rewrite sys_mkfifo_umask. Qed.

Lemma batch_new_node requests fs (q : string) (n : node) :
  nodes fs !! q = None ->
  nodes (final (exec sys_mkfifo (createfifos requests) fs)) !! q = Some n ->
  exists e, e ∈ trace (exec sys_mkfifo (createfifos requests) fs)
            /\ ev_path e = q /\ ev_status e = 0 /\ n = new_fifo fs (ev_mode e).
Proof.
  revert fs. induction requests as [|r rest IH]; intros fs Hq Hn.
  - simpl in Hn. congruence.
  - rewrite exec_createfifos_cons in *. cbn [final trace] in *.
    destruct (nodes (snd (sys_mkfifo (path r) (permissions r) fs)) !! q) as [n'|] eqn:Hmid.
    + destruct (sys_mkfifo_new_node _ _ _ _ _ Hq Hmid) as (-> & -> & Ha).
      eapply batch_keeps in Hmid. rewrite Hmid in Hn. injection Hn as <-.
      eexists. split; [apply elem_of_cons; now left|]. cbn [ev_path ev_status ev_mode].
      rewrite sys_mkfifo_status, Ha. auto.
    + destruct (IH _ Hmid Hn) as (e & He & Hp & Hs & ->).
      exists e. split; [apply elem_of_cons; now right|].
      rewrite new_fifo_after_call. auto.
Qed.

Lemma batch_created_node requests fs (e : event) :
  e ∈ trace (exec sys_mkfifo (createfifos requests) fs) ->
  ev_status e = 0 ->
  nodes (final (exec sys_mkfifo (createfifos requests) fs)) !! ev_path e
  = Some (new_fifo fs (ev_mode e)).
Proof.
  revert fs. induction requests as [|r rest IH]; intros fs He Hs.
  - simpl in He. now apply elem_of_nil in He.
  - rewrite exec_createfifos_cons in *. cbn [final trace] in *.
    apply elem_of_cons in He. destruct He as [-> | He].
    + cbn [ev_path ev_status ev_mode] in *.
      rewrite sys_mkfifo_status in Hs. apply status_of_zero in Hs.
      apply batch_keeps. rewrite sys_mkfifo_created by assumption.
      cbn [nodes]. apply lookup_insert_eq.
    + rewrite (IH _ He Hs). now rewrite new_fifo_after_call.
Qed.

End Batch.

(** ** The claims on the filesystem *)

(** What the filesystem reports in the four scenarios, and the status the
    code is left with. *)
Example scenario_reports :
  reports [pipeA] tmp_test = [Created]
  /\ reports [pipeA] (final pipeA_first) = [AlreadyExists]
  /\ reports [pipeA] tmp_test_taken = [Failed PathAlreadyExistsIncompatible]
  /\ reports [orphan] tmp_test_taken = [Failed ParentDirectoryMissing]
  /\ reports [sealed] tmp_test_taken = [Failed PermissionDenied].
Proof. repeat split; vm_compute; reflexivity. Qed.

Example scenario_statuses :
  statuses pipeA_first = [0]
  /\ statuses pipeA_again = [-1]
  /\ statuses pipeA_taken = [-1]
  /\ statuses orphan_alone = [-1].
Proof. repeat split; vm_compute; reflexivity. Qed.

(** C3 (amended): provisioning is repeatable.  For a single request that
    the filesystem can satisfy (nothing at the path, a containing directory
    that admits the entry, a valid mask), the first run creates the pipe
    with status 0; a second run with the same request finds the pipe there,
    gets status -1, leaves the filesystem as it is and returns normally.
    The filesystem reports [AlreadyExists] for the second attempt, but the
    status the code is given is the one of a failed creation. *)
Theorem C3_second_run_changes_nothing :
  forall (fs : filesystem) (r : PipeRequest),
    creatable fs r ->
    statuses (exec sys_mkfifo (createfifos [r]) fs) = [0]
    /\ nodes (final (exec sys_mkfifo (createfifos [r]) fs)) !! path r
       = Some (new_fifo fs (permissions r))
    /\ reports [r] (final (exec sys_mkfifo (createfifos [r]) fs)) = [AlreadyExists]
    /\ statuses (exec sys_mkfifo (createfifos [r])
                      (final (exec sys_mkfifo (createfifos [r]) fs))) = [-1]
    /\ final (exec sys_mkfifo (createfifos [r])
                   (final (exec sys_mkfifo (createfifos [r]) fs)))
       = final (exec sys_mkfifo (createfifos [r]) fs)
    /\ ret (exec sys_mkfifo (createfifos [r])
                 (final (exec sys_mkfifo (createfifos [r]) fs))) = tt.
Proof.
  intros fs [p m] Hc. apply attempt_created_iff in Hc. cbn [path permissions] in *.
  assert (Hfinal : final (exec sys_mkfifo (createfifos [Request p m]) fs)
                   = Filesystem (<[p := new_fifo fs m]> (nodes fs)) (umask fs) (read_only fs)).
  { rewrite exec_createfifos_cons. cbn [final exec createfifos path permissions].
    now apply sys_mkfifo_created. }
  remember (final (exec sys_mkfifo (createfifos [Request p m]) fs)) as fs1 eqn:Efs1.
  assert (Hagain : attempt fs1 p m = AlreadyExists).
  { rewrite Hfinal. apply attempt_existing_pipe with (n := new_fifo fs m).
    - cbn [nodes]. apply lookup_insert_eq.
    - reflexivity. }
  split; [|split; [|split; [|split; [|split]]]].
  - rewrite statuses_are_reports. cbn [reports map path permissions]. now rewrite Hc.
  - rewrite Hfinal. cbn [nodes]. apply lookup_insert_eq.
  - cbn [reports path permissions]. now rewrite Hagain.
  - rewrite statuses_are_reports. cbn [reports map path permissions]. now rewrite Hagain.
  - rewrite exec_createfifos_cons.
    cbn [final exec createfifos path permissions].
    apply sys_mkfifo_not_created. rewrite Hagain. discriminate.
  - apply ret_createfifos.
Qed.

Lemma C3_witness_pipeA_twice :
  creatable tmp_test pipeA
  /\ statuses pipeA_first = [0]
  /\ statuses pipeA_again = [-1]
  /\ final pipeA_again = final pipeA_first.
Proof.
  assert (Hc : creatable tmp_test pipeA).
  { split; [vm_compute; reflexivity|].
    split; [exists (dir 511); repeat split; vm_compute; reflexivity|].
    split; reflexivity. }
  split; [exact Hc|].
  pose proof (C3_second_run_changes_nothing tmp_test pipeA Hc)
    as (H1 & _ & _ & H2 & H3 & _).
  exact (conj H1 (conj H2 H3)).
Defined.

(** C3 as stated fails: the status the code receives when [pipeA] is
    already there as a pipe is the status it receives when a regular file
    has the path, so nothing in the code's hands tells [AlreadyExists] from
    [Failed]. *)
Lemma C3_counterexample_existing_pipe_reads_as_failure :
  ~ exists outcome_of : Z -> outcome,
      map outcome_of (statuses pipeA_again) = [AlreadyExists]
      /\ map outcome_of (statuses pipeA_taken) = [Failed PathAlreadyExistsIncompatible].
Proof.
  intros [outcome_of [H1 H2]].
  vm_compute in H1, H2. congruence.
Qed.

(** C5: for every batch, the run changes nothing but the filesystem's
    nodes, and those only by adding pipes for the requests whose call
    returned 0 (created).  The umask and the state of the mount are as
    before; every node that was there is there unchanged, so a regular file
    at a requested path keeps its bytes and its mode; every node that was
    not there is an empty pipe made by a call of the batch that returned
    0, and every call that returned 0 has its pipe there. *)
Theorem C5_only_new_pipes_are_added :
  forall (requests : list PipeRequest) (fs : filesystem),
    umask (final (exec sys_mkfifo (createfifos requests) fs)) = umask fs
    /\ read_only (final (exec sys_mkfifo (createfifos requests) fs)) = read_only fs
    /\ (forall (q : string) (n : node),
          nodes fs !! q = Some n ->
          nodes (final (exec sys_mkfifo (createfifos requests) fs)) !! q = Some n)
    /\ (forall (r : PipeRequest) (n : node),
          r ∈ requests ->
          nodes fs !! path r = Some n ->
          n_type n = RegularFile ->
          exists n', nodes (final (exec sys_mkfifo (createfifos requests) fs)) !! path r
                     = Some n'
                     /\ n_type n' = RegularFile
                     /\ n_data n' = n_data n /\ n_mode n' = n_mode n)
    /\ (forall (q : string) (n : node),
          nodes fs !! q = None ->
          nodes (final (exec sys_mkfifo (createfifos requests) fs)) !! q = Some n ->
          n_type n = Fifo
          /\ n_data n = []
          /\ exists e, e ∈ trace (exec sys_mkfifo (createfifos requests) fs)
                       /\ ev_path e = q /\ ev_status e = 0
                       /\ n = new_fifo fs (ev_mode e))
    /\ (forall (e : event),
          e ∈ trace (exec sys_mkfifo (createfifos requests) fs) ->
          ev_status e = 0 ->
          nodes (final (exec sys_mkfifo (createfifos requests) fs)) !! ev_path e
          = Some (new_fifo fs (ev_mode e))).
Proof.
  intros requests fs.
  split; [apply batch_umask|].
  split; [apply batch_read_only|].
  split; [intros q n; apply batch_keeps|].
  split; [|split].
  - intros r n _ Hn Ht. exists n. split; [now apply batch_keeps|]. auto.
  - intros q n Hq Hn.
    destruct (batch_new_node requests fs q n Hq Hn) as (e & He & Hp & Hs & ->).
    split; [reflexivity|]. split; [reflexivity|].
    exists e. auto.
  - intros e He Hs. now apply batch_created_node.
Qed.

(** The picture on [device] survives the entry point, bytes and mode. *)
Example picture_untouched :
  nodes (final first_run) !! "/storage/emulated/legacy/DCIM/foo.jpg"
  = Some (Node RegularFile 432 [255; 216; 255; 224])
  /\ nodes device !! "/storage/emulated/legacy/DCIM/foo.jpg"
     = Some (Node RegularFile 432 [255; 216; 255; 224]).
Proof. split; vm_compute; reflexivity. Qed.

(** C6 (amended): for every request whose creation attempt fails, the
    status the code is given is -1, the same for every cause: whichever of
    [PathAlreadyExistsIncompatible], [ParentDirectoryMissing],
    [PermissionDenied] and [IOError] the filesystem reports for the
    attempt, the call for that request returns -1 and leaves the
    filesystem as it was. *)
Theorem C6_every_failure_has_status_minus_one :
  forall (requests : list PipeRequest) (fs : filesystem) (i : nat) (why : reason),
    reports requests fs !! i = Some (Failed why) ->
    statuses (exec sys_mkfifo (createfifos requests) fs) !! i = Some (-1)
    /\ forall (fs' : filesystem) (p : string) (mode : Z),
         attempt fs' p mode = Failed why ->
         sys_mkfifo p mode fs' = (-1, fs').
Proof.
  intros requests fs i why Hrep. split.
  - rewrite statuses_are_reports, list_lookup_fmap, Hrep. reflexivity.
  - intros fs' p mode Ha. unfold sys_mkfifo. rewrite Ha. reflexivity.
Qed.

Lemma C6_witness_sealed_directory :
  reports [orphan; pipeA; sealed] tmp_test_taken !! 2%nat = Some (Failed PermissionDenied)
  /\ statuses (exec sys_mkfifo (createfifos [orphan; pipeA; sealed]) tmp_test_taken) !! 2%nat
     = Some (-1).
Proof.
  split; [vm_compute; reflexivity|].
  refine (proj1 (C6_every_failure_has_status_minus_one
                   [orphan; pipeA; sealed] tmp_test_taken 2%nat PermissionDenied _)).
  vm_compute. reflexivity.
Defined.

(** C6 as stated fails: a regular file in the place of the pipe and a
    missing containing directory leave the code with the same status, so
    no reason can be read off what the code holds. *)
Lemma C6_counterexample_causes_share_a_status :
  ~ exists reason_of : Z -> reason,
      map reason_of (statuses pipeA_taken) = [PathAlreadyExistsIncompatible]
      /\ map reason_of (statuses orphan_alone) = [ParentDirectoryMissing].
Proof.
  intros [reason_of [H1 H2]].
  vm_compute in H1, H2. congruence.
Qed.




(** With a umask the cleared bits are missing from the new pipe. *)
Example umask_clears_bits :
  n_mode <$> nodes (final (exec sys_mkfifo (createfifos [pipeA])
                             (Filesystem (nodes tmp_test) 18 false))) !! "/tmp/test/pipeA"
  = Some 420.
Proof. vm_compute. reflexivity. Qed.


(** ** Further properties of the batch *)

(** *** Composition, in every environment *)

(** X1: a batch made of two batches runs as the first followed by the
    second, in every environment: the second starts in the state the first
    left, and the calls are those of the first followed by those of the
    second.  The entry point is the call for [foo.jpg] followed by the ten
    calls for the pipes. *)
Theorem X1_batches_compose :
  forall (W : Type) (h : handler W) (front back : list PipeRequest) (w : W),
    final (exec h (createfifos (front ++ back)) w)
    = final (exec h (createfifos back) (final (exec h (createfifos front) w)))
    /\ trace (exec h (createfifos (front ++ back)) w)
       = (trace (exec h (createfifos front) w)
          ++ trace (exec h (createfifos back) (final (exec h (createfifos front) w))))%list.
Proof.
  intros W h front back. induction front as [|r rest IH]; intros w.
  - split; reflexivity.
  - rewrite <- app_comm_cons, !exec_createfifos_cons. cbn [final trace].
    destruct (IH (snd (h (path r) (permissions r) w))) as [-> ->].
    split; reflexivity.
Qed.

(** *** One call and the attempts that follow it *)

Lemma attempt_after_other_call (fs : filesystem) (p q : string) (m m' : Z) :
  p <> q -> attempt (snd (sys_mkfifo p m fs)) q m' = attempt fs q m'.
Proof.
  intros Hne. destruct (attempt fs p m) eqn:Ha.
  - rewrite sys_mkfifo_created by assumption.
    apply attempt_created_iff in Ha. destruct Ha as (Hnone & _). cbn [path] in Hnone.
    unfold attempt. cbn [nodes read_only].
    rewrite lookup_insert_ne by assumption.
    destruct (nodes fs !! q) as [n|]; [reflexivity|].
    destruct (decide (p = dirname q)) as [Hd|Hd].
    + rewrite <- Hd, lookup_insert_eq, Hnone. reflexivity.
    + rewrite lookup_insert_ne by assumption. reflexivity.
  - rewrite sys_mkfifo_not_created; [reflexivity|congruence].
  - rewrite sys_mkfifo_not_created; [reflexivity|congruence].
Qed.

Lemma refused_after_own_call (fs : filesystem) (r : PipeRequest) :
  refused (snd (sys_mkfifo (path r) (permissions r) fs)) r.
Proof.
  unfold refused. destruct (attempt fs (path r) (permissions r)) eqn:Ha.
  - rewrite sys_mkfifo_created by assumption.
    rewrite (attempt_existing_pipe _ _ _ (new_fifo fs (permissions r))).
    + discriminate.
    + cbn [nodes]. apply lookup_insert_eq.
    + reflexivity.
  - rewrite sys_mkfifo_not_created; congruence.
  - rewrite sys_mkfifo_not_created; congruence.
Qed.

Lemma refused_after_call (fs : filesystem) (r : PipeRequest) (p : string) (m : Z) :
  refused fs r -> refused (snd (sys_mkfifo p m fs)) r.
Proof.
  intros Hr. unfold refused in *.
  destruct (decide (p = path r)) as [->|Hne].
  - destruct (attempt fs (path r) m) eqn:Ha.
    + rewrite sys_mkfifo_created by assumption.
      rewrite (attempt_existing_pipe _ _ _ (new_fifo fs m)).
      * discriminate.
      * cbn [nodes]. apply lookup_insert_eq.
      * reflexivity.
    + rewrite sys_mkfifo_not_created; congruence.
    + rewrite sys_mkfifo_not_created; congruence.
  - now rewrite attempt_after_other_call.
Qed.

Lemma refused_after_batch (requests : list PipeRequest) (fs : filesystem) (r : PipeRequest) :
  refused fs r -> refused (final (exec sys_mkfifo (createfifos requests) fs)) r.
Proof.
  revert fs. induction requests as [|r0 rest IH]; intros fs Hr; [assumption|].
  rewrite exec_createfifos_cons. cbn [final]. apply IH. now apply refused_after_call.
Qed.

Lemma all_refused_after_batch (requests : list PipeRequest) (fs : filesystem) :
  Forall (refused (final (exec sys_mkfifo (createfifos requests) fs))) requests.
Proof.
  revert fs. induction requests as [|r rest IH]; intros fs; [constructor|].
  rewrite exec_createfifos_cons. cbn [final]. constructor; [|apply IH].
  apply refused_after_batch, refused_after_own_call.
Qed.

Lemma refused_batch_is_idle (requests : list PipeRequest) (fs : filesystem) :
  Forall (refused fs) requests ->
  final (exec sys_mkfifo (createfifos requests) fs) = fs
  /\ statuses (exec sys_mkfifo (createfifos requests) fs)
     = map (fun _ => -1) requests.
Proof.
  unfold statuses. induction requests as [|r rest IH]; intros Hall; [split; reflexivity|].
  apply Forall_cons in Hall. destruct Hall as [Hr Hrest].
  rewrite exec_createfifos_cons. cbn [final trace map ev_status].
  rewrite sys_mkfifo_status, (sys_mkfifo_not_created _ _ _ Hr).
  destruct (IH Hrest) as [-> ->]. split; [reflexivity|].
  f_equal. unfold refused in Hr.
  destruct (attempt fs (path r) (permissions r)); [now elim Hr | reflexivity | reflexivity].
Qed.

(** *** Running a batch again *)

(** X2: running any batch a second time on the filesystem the first run
    left creates nothing: every call of the second run returns -1 and the
    filesystem stays as the first run left it, whatever the first run
    met. *)
Theorem X2_second_run_of_a_batch_is_idle :
  forall (requests : list PipeRequest) (fs : filesystem),
    final (exec sys_mkfifo (createfifos requests)
                (final (exec sys_mkfifo (createfifos requests) fs)))
    = final (exec sys_mkfifo (createfifos requests) fs)
    /\ statuses (exec sys_mkfifo (createfifos requests)
                      (final (exec sys_mkfifo (createfifos requests) fs)))
       = map (fun _ => -1) requests.
Proof.
  intros requests fs. apply refused_batch_is_idle, all_refused_after_batch.
Qed.

(** X3: a run leaves the filesystem as it was exactly when the
    filesystem would satisfy none of the requests (the path is taken, the
    containing directory is missing or closed to the caller, the
    filesystem takes no new node, or the mask is invalid); every call then
    returns -1.  No directory is ever created on the way to a pipe. *)
Theorem X3_refused_batch_changes_nothing :
  forall (requests : list PipeRequest) (fs : filesystem),
    (Forall (refused fs) requests
     <-> final (exec sys_mkfifo (createfifos requests) fs) = fs)
    /\ (Forall (refused fs) requests ->
        statuses (exec sys_mkfifo (createfifos requests) fs)
        = map (fun _ => -1) requests).
Proof.
  intros requests fs. split; [split|].
  - intros Hall. now apply refused_batch_is_idle.
  - induction requests as [|r rest IH]; intros Hsame; [constructor|].
    rewrite exec_createfifos_cons in Hsame. cbn [final] in Hsame.
    destruct (attempt fs (path r) (permissions r)) eqn:Ha.
    + exfalso.
      pose proof Ha as Hc. apply attempt_created_iff in Hc. destruct Hc as (Hnone & _).
      assert (Hnew : nodes (snd (sys_mkfifo (path r) (permissions r) fs)) !! path r
                     = Some (new_fifo fs (permissions r))).
      { rewrite sys_mkfifo_created by assumption. cbn [nodes]. apply lookup_insert_eq. }
      apply (batch_keeps rest) in Hnew. rewrite Hsame in Hnew. cbn [path] in Hnone.
      congruence.
    + assert (Hr : refused fs r) by (unfold refused; congruence).
      rewrite (sys_mkfifo_not_created _ _ _ Hr) in Hsame. constructor; auto.
    + assert (Hr : refused fs r) by (unfold refused; congruence).
      rewrite (sys_mkfifo_not_created _ _ _ Hr) in Hsame. constructor; auto.
  - intros Hall. now apply refused_batch_is_idle.
Qed.

Lemma read_only_refuses (fs : filesystem) (r : PipeRequest) :
  read_only fs = true -> refused fs r.
Proof.
  intros Hro Ha. destruct r as [p m]. apply attempt_created_iff in Ha.
  destruct Ha as (_ & _ & Hrw & _). congruence.
Qed.

Lemma X3_witness_read_only_device :
  Forall (refused (Filesystem (nodes device_without_picture) 0 true)) hardcoded_requests
  /\ final (exec sys_mkfifo (createfifos hardcoded_requests)
                 (Filesystem (nodes device_without_picture) 0 true))
     = Filesystem (nodes device_without_picture) 0 true.
Proof.
  assert (H : Forall (refused (Filesystem (nodes device_without_picture) 0 true))
                     hardcoded_requests).
  { apply Forall_forall. intros r _. apply read_only_refuses. reflexivity. }
  split; [exact H|].
  exact (proj1 (proj1 (X3_refused_batch_changes_nothing hardcoded_requests _)) H).
Defined.

(** *** Requests do not depend on one another *)

Lemma reports_first_occurrence (requests : list PipeRequest) (fs : filesystem)
      (i : nat) (r : PipeRequest) :
  requests !! i = Some r ->
  path r ∉ map path (take i requests) ->
  reports requests fs !! i = Some (attempt fs (path r) (permissions r)).
Proof.
  revert fs i. induction requests as [|r0 rest IH]; intros fs i Hi Hfresh.
  - discriminate Hi.
  - destruct i as [|i].
    + injection Hi as ->. reflexivity.
    + cbn [reports]. cbn in Hi. cbn [take map] in Hfresh.
      apply not_elem_of_cons in Hfresh. destruct Hfresh as [Hne Hfresh].
      change (reports rest (snd (sys_mkfifo (path r0) (permissions r0) fs)) !! i
              = Some (attempt fs (path r) (permissions r))).
      rewrite (IH _ i Hi Hfresh). f_equal.
      apply attempt_after_other_call. congruence.
Qed.

(** X4: the status of a call does not depend on the calls before it,
    unless one of them was for the same path: for a request whose path
    does not occur earlier in the batch, the status is the one the call
    would get as the only call on the initial filesystem. *)
Theorem X4_status_depends_on_initial_filesystem_only :
  forall (requests : list PipeRequest) (fs : filesystem) (i : nat) (r : PipeRequest),
    requests !! i = Some r ->
    path r ∉ map path (take i requests) ->
    statuses (exec sys_mkfifo (createfifos requests) fs) !! i
    = Some (fst (sys_mkfifo (path r) (permissions r) fs)).
Proof.
  intros requests fs i r Hi Hfresh.
  rewrite statuses_are_reports, list_lookup_fmap.
  rewrite (reports_first_occurrence requests fs i r Hi Hfresh).
  cbn. now rewrite sys_mkfifo_status.
Qed.

Lemma X4_witness_pipeA_after_failures :
  ([orphan; sealed; pipeA] !! 2%nat) = Some pipeA
  /\ (path pipeA ∉ map path (take 2 [orphan; sealed; pipeA]))
  /\ statuses (exec sys_mkfifo (createfifos [orphan; sealed; pipeA]) tmp_test) !! 2%nat
     = Some (fst (sys_mkfifo (path pipeA) (permissions pipeA) tmp_test)).
Proof.
  assert (Hfresh : path pipeA ∉ map path (take 2 [orphan; sealed; pipeA])).
  { intros Hin. vm_compute in Hin.
    apply elem_of_cons in Hin. destruct Hin as [Hin|Hin]; [discriminate Hin|].
    apply elem_of_cons in Hin. destruct Hin as [Hin|Hin]; [discriminate Hin|].
    now apply elem_of_nil in Hin. }
  split; [reflexivity|]. split; [exact Hfresh|].
  exact (X4_status_depends_on_initial_filesystem_only
           [orphan; sealed; pipeA] tmp_test 2%nat pipeA eq_refl Hfresh).
Defined.

(** A second request for a path does depend on the first. *)
Example same_path_twice :
  statuses (exec sys_mkfifo (createfifos [pipeA; pipeA]) tmp_test) = [0; -1].
Proof. vm_compute. reflexivity. Qed.

Lemma sys_mkfifo_effect (fs : filesystem) (p : string) (m : Z) :
  snd (sys_mkfifo p m fs)
  = match attempt fs p m with
    | Created => Filesystem (<[p := new_fifo fs m]> (nodes fs)) (umask fs) (read_only fs)
    | _ => fs
    end.
Proof. unfold sys_mkfifo. destruct (attempt fs p m); reflexivity. Qed.

Lemma calls_commute (fs : filesystem) (x y : PipeRequest) :
  path x <> path y ->
  snd (sys_mkfifo (path y) (permissions y) (snd (sys_mkfifo (path x) (permissions x) fs)))
  = snd (sys_mkfifo (path x) (permissions x) (snd (sys_mkfifo (path y) (permissions y) fs))).
Proof.
  intros Hne.
  rewrite (sys_mkfifo_effect (snd (sys_mkfifo (path x) (permissions x) fs))).
  rewrite (sys_mkfifo_effect (snd (sys_mkfifo (path y) (permissions y) fs))).
  rewrite !new_fifo_after_call, !sys_mkfifo_umask, !sys_mkfifo_read_only.
  rewrite (attempt_after_other_call fs (path x) (path y)) by assumption.
  rewrite (attempt_after_other_call fs (path y) (path x)) by congruence.
  rewrite !sys_mkfifo_effect.
  destruct (attempt fs (path x) (permissions x)), (attempt fs (path y) (permissions y));
    cbn [nodes]; try reflexivity.
  f_equal. apply insert_insert_ne. congruence.
Qed.

(** X5: for requests with pairwise distinct paths the order of the calls
    does not matter to the filesystem: two batches that hold the same
    requests in different orders leave the same filesystem. *)
Theorem X5_order_of_distinct_paths_is_irrelevant :
  forall (requests requests' : list PipeRequest) (fs : filesystem),
    NoDup (map path requests) ->
    requests ≡ₚ requests' ->
    final (exec sys_mkfifo (createfifos requests) fs)
    = final (exec sys_mkfifo (createfifos requests') fs).
Proof.
  intros requests requests' fs Hnd Hperm. revert fs Hnd.
  induction Hperm as [|r l l' Hp IH|x y l|l l' l'' Hp1 IH1 Hp2 IH2]; intros fs Hnd.
  - reflexivity.
  - rewrite !exec_createfifos_cons. cbn [final]. apply IH.
    cbn [map] in Hnd. apply NoDup_cons in Hnd. tauto.
  - rewrite !exec_createfifos_cons. cbn [final].
    rewrite (calls_commute fs x y); [reflexivity|].
    cbn [map] in Hnd. apply NoDup_cons in Hnd. destruct Hnd as [Hx _].
    intros Heq. apply Hx. rewrite Heq. apply elem_of_cons. now left.
  - rewrite IH1 by assumption. apply IH2.
    pose proof (Permutation_map path Hp1) as Hm. now rewrite <- Hm.
Qed.

Lemma X5_witness_two_orders :
  NoDup (map path [orphan; pipeA; sealed])
  /\ [orphan; pipeA; sealed] ≡ₚ [sealed; pipeA; orphan]
  /\ final (exec sys_mkfifo (createfifos [orphan; pipeA; sealed]) tmp_test)
     = final (exec sys_mkfifo (createfifos [sealed; pipeA; orphan]) tmp_test).
Proof.
  assert (Hnd : NoDup (map path [orphan; pipeA; sealed])).
  { apply (bool_decide_unpack _). vm_compute. exact I. }
  assert (Hp : [orphan; pipeA; sealed] ≡ₚ [sealed; pipeA; orphan]).
  { apply perm_trans with [pipeA; orphan; sealed]; [apply perm_swap|].
    apply perm_trans with [pipeA; sealed; orphan]; [apply perm_skip, perm_swap|].
    apply perm_swap. }
  split; [exact Hnd|]. split; [exact Hp|].
  exact (X5_order_of_distinct_paths_is_irrelevant _ _ tmp_test Hnd Hp).
Defined.

(** With one path requested twice under different masks the order shows. *)
Example same_path_order_matters :
  final (exec sys_mkfifo (createfifos [Request "/tmp/test/pipeA" 438;
                                       Request "/tmp/test/pipeA" 384]) tmp_test)
  <> final (exec sys_mkfifo (createfifos [Request "/tmp/test/pipeA" 384;
                                          Request "/tmp/test/pipeA" 438]) tmp_test).
Proof. vm_compute. discriminate. Qed.

(** X6: when the paths of a batch are pairwise distinct and the initial
    filesystem can satisfy each request by itself, every call returns 0
    and, after the batch, every requested path holds a pipe with the
    requested mask less the bits of the umask. *)
Theorem X6_all_created_when_each_is_creatable :
  forall (requests : list PipeRequest) (fs : filesystem),
    NoDup (map path requests) ->
    Forall (creatable fs) requests ->
    statuses (exec sys_mkfifo (createfifos requests) fs) = map (fun _ => 0) requests
    /\ forall r, r ∈ requests ->
         nodes (final (exec sys_mkfifo (createfifos requests) fs)) !! path r
         = Some (new_fifo fs (permissions r)).
Proof.
  unfold statuses. intros requests.
  induction requests as [|r rest IH]; intros fs Hnd Hall.
  - split; [reflexivity|]. intros r Hr. now apply elem_of_nil in Hr.
  - cbn [map] in Hnd. apply NoDup_cons in Hnd. destruct Hnd as [Hfresh Hnd].
    apply Forall_cons in Hall. destruct Hall as [Hr Hrest].
    destruct r as [p m]. apply attempt_created_iff in Hr. cbn [path permissions] in *.
    assert (Hrest' : Forall (creatable (snd (sys_mkfifo p m fs))) rest).
    { apply Forall_forall. intros [q mq] Hq.
      apply attempt_created_iff. cbn [path permissions].
      rewrite attempt_after_other_call.
      - apply attempt_created_iff. revert Hq. now apply Forall_forall.
      - intros ->. apply Hfresh.
        change q with (path (Request q mq)).
        now apply (list_elem_of_fmap_2 path). }
    destruct (IH _ Hnd Hrest') as [Hst Hnodes].
    rewrite exec_createfifos_cons. cbn [final trace map ev_status path permissions].
    rewrite sys_mkfifo_status, Hr, Hst. split; [reflexivity|].
    intros r Hin. apply elem_of_cons in Hin. destruct Hin as [->|Hin].
    + cbn [path permissions]. apply batch_keeps.
      rewrite sys_mkfifo_created by assumption. cbn [nodes]. apply lookup_insert_eq.
    + rewrite (Hnodes r Hin). now rewrite new_fifo_after_call.
Qed.

Lemma hardcoded_paths_distinct : NoDup (map path hardcoded_requests).
Proof. apply (bool_decide_unpack _). vm_compute. exact I. Qed.

Lemma X6_witness_entry_point_on_fresh_device :
  Forall (creatable device_without_picture) hardcoded_requests
  /\ statuses (exec sys_mkfifo (createfifos hardcoded_requests) device_without_picture)
     = [0; 0; 0; 0; 0; 0; 0; 0; 0; 0; 0].
Proof.
  assert (Hall : Forall (creatable device_without_picture) hardcoded_requests).
  { repeat (apply Forall_cons; split;
            [apply attempt_created_iff; vm_compute; reflexivity|]).
    apply Forall_nil. exact I. }
  split; [exact Hall|].
  exact (proj1 (X6_all_created_when_each_is_creatable hardcoded_requests
                  device_without_picture hardcoded_paths_distinct Hall)).
Defined.

(** *** What a batch can reach *)

Lemma sys_mkfifo_other_path (fs : filesystem) (p q : string) (m : Z) :
  p <> q -> nodes (snd (sys_mkfifo p m fs)) !! q = nodes fs !! q.
Proof.
  intros Hne. rewrite sys_mkfifo_effect.
  destruct (attempt fs p m); try reflexivity.
  cbn [nodes]. now apply lookup_insert_ne.
Qed.

(** X7: a batch reaches no path but those it names: whatever is, or is
    not, at a path that no request of the batch has is the same before and
    after the run.  No containing directory is made, no neighbour is
    replaced. *)
Theorem X7_paths_outside_the_batch_are_untouched :
  forall (requests : list PipeRequest) (fs : filesystem) (q : string),
    q ∉ map path requests ->
    nodes (final (exec sys_mkfifo (createfifos requests) fs)) !! q = nodes fs !! q.
Proof.
  intros requests. induction requests as [|r rest IH]; intros fs q Hq; [reflexivity|].
  cbn [map] in Hq. apply not_elem_of_cons in Hq. destruct Hq as [Hne Hq].
  rewrite exec_createfifos_cons. cbn [final].
  rewrite (IH _ q Hq). apply sys_mkfifo_other_path. congruence.
Qed.

Lemma X7_witness_directory_not_made :
  ("/tmp/missing" ∉ map path [orphan; pipeA])
  /\ nodes (final (exec sys_mkfifo (createfifos [orphan; pipeA]) tmp_test)) !! "/tmp/missing"
     = nodes tmp_test !! "/tmp/missing".
Proof.
  assert (Hq : "/tmp/missing" ∉ map path [orphan; pipeA]).
  { intros Hin. vm_compute in Hin.
    apply elem_of_cons in Hin. destruct Hin as [Hin|Hin]; [discriminate Hin|].
    apply elem_of_cons in Hin. destruct Hin as [Hin|Hin]; [discriminate Hin|].
    now apply elem_of_nil in Hin. }
  split; [exact Hq|].
  exact (X7_paths_outside_the_batch_are_untouched [orphan; pipeA] tmp_test _ Hq).
Defined.

(** X8: the filesystem grows by exactly one node for each call that
    returned 0 and by none for the others: the number of nodes after a
    batch is the number before plus the number of statuses 0. *)
Theorem X8_one_new_node_per_zero_status :
  forall (requests : list PipeRequest) (fs : filesystem),
    size (nodes (final (exec sys_mkfifo (createfifos requests) fs)))
    = (size (nodes fs)
       + count_created (trace (exec sys_mkfifo (createfifos requests) fs)))%nat.
Proof.
  intros requests. induction requests as [|r rest IH]; intros fs.
  - cbn. lia.
  - rewrite exec_createfifos_cons. cbn [final trace count_created ev_status].
    rewrite IH, sys_mkfifo_status, sys_mkfifo_effect.
    destruct (attempt fs (path r) (permissions r)) eqn:Ha; cbn [status_of nodes].
    + apply attempt_created_iff in Ha. destruct Ha as (Hnone & _).
      rewrite map_size_insert_None by assumption.
      change (0 =? 0) with true. cbn iota. lia.
    + change (-1 =? 0) with false. cbn iota. lia.
    + change (-1 =? 0) with false. cbn iota. lia.
Qed.

Lemma hardcoded_modes : Forall (fun r => permissions r = 438) hardcoded_requests.
Proof. repeat constructor. Qed.

Lemma new_fifo_bits (fs : filesystem) (mode : Z) :
  Z.land (n_mode (new_fifo fs mode)) (umask fs) = 0
  /\ Z.land (n_mode (new_fifo fs mode)) (Z.lnot mode) = 0.
Proof.
  unfold new_fifo. cbn [n_mode]. split.
  - rewrite <- Z.land_assoc, (Z.land_comm (Z.lnot _)), Z.land_lnot_diag.
    apply Z.land_0_r.
  - rewrite (Z.land_comm mode), <- Z.land_assoc, Z.land_lnot_diag.
    apply Z.land_0_r.
Qed.

(** X9: every node the entry point adds to a filesystem is an empty pipe
    whose mode has no bit outside 0666, hence no execute bit, and no bit
    of the umask, whatever the filesystem and its umask are. *)
Theorem X9_entry_point_adds_only_plain_pipes :
  forall (JNIEnv : Type) (env : JNIEnv) (fs : filesystem) (q : string) (n : node),
    nodes fs !! q = None ->
    nodes (final (exec sys_mkfifo
                    (Java_info_guardianproject_iocipher_Pipes_createfifonative env) fs)) !! q
    = Some n ->
    n_type n = Fifo
    /\ n_data n = []
    /\ Z.land (n_mode n) (Z.lnot 438) = 0
    /\ Z.land (n_mode n) EXECPERMS = 0
    /\ Z.land (n_mode n) (umask fs) = 0.
Proof.
  intros JNIEnv env fs q n Hq Hn. rewrite createfifonative_is_batch in Hn.
  destruct (batch_new_node hardcoded_requests fs q n Hq Hn) as (e & He & _ & _ & ->).
  assert (Hm : ev_mode e = 438).
  { pose proof (calls_createfifos sys_mkfifo hardcoded_requests fs) as Hc.
    pose proof hardcoded_modes as Hall. rewrite <- Hc in Hall.
    unfold calls in Hall. rewrite Forall_forall in Hall.
    apply (Hall (ev_request e)). now apply (list_elem_of_fmap_2 ev_request). }
  rewrite Hm. destruct (new_fifo_bits fs 438) as [Hu Hout].
  split; [reflexivity|]. split; [reflexivity|]. split; [exact Hout|].
  split; [|exact Hu].
  unfold new_fifo. cbn [n_mode].
  rewrite (Z.land_comm 438), <- Z.land_assoc.
  change (Z.land 438 EXECPERMS) with 0. apply Z.land_0_r.
Qed.

Lemma X9_witness_pipe0_with_umask :
  nodes (Filesystem (nodes device) 18 false)
    !! "/data/data/info.guardianproject.securecamtest/pipe0" = None
  /\ nodes (final (exec sys_mkfifo
                     (Java_info_guardianproject_iocipher_Pipes_createfifonative tt)
                     (Filesystem (nodes device) 18 false)))
       !! "/data/data/info.guardianproject.securecamtest/pipe0"
     = Some (Node Fifo 420 [])
  /\ Z.land 420 EXECPERMS = 0.
Proof.
  assert (H0 : nodes (Filesystem (nodes device) 18 false)
                 !! "/data/data/info.guardianproject.securecamtest/pipe0" = None)
    by (vm_compute; reflexivity).
  assert (H1 : nodes (final (exec sys_mkfifo
                     (Java_info_guardianproject_iocipher_Pipes_createfifonative tt)
                     (Filesystem (nodes device) 18 false)))
                 !! "/data/data/info.guardianproject.securecamtest/pipe0"
               = Some (Node Fifo 420 []))
    by (vm_compute; reflexivity).
  split; [exact H0|]. split; [exact H1|].
  exact (proj1 (proj2 (proj2 (proj2
    (X9_entry_point_adds_only_plain_pipes unit tt _ _ _ H0 H1))))).
Defined.
